(** * AISuggestionEngine: the Gemini suggestion adapter

    A shallow embedding of [src/components/AISuggestionEngine.ts] and the
    properties of [getAiSuggestions].

    The adapter is one asynchronous function.  It checks a module-level
    client handle, builds a prompt, awaits one SDK call inside a [try] block,
    parses the returned text as JSON, filters the parsed array against the
    abbreviations of the remedies it was given, and turns every exception of
    the [try] block into a fresh [Error].

    Modelling choices:
    - a JavaScript string is the sequence of its UTF-16 code units;
    - JavaScript values are an inductive type with the cases [JSON.parse]
      can produce, plus [undefined];
    - the function is a program in a small monad with two effects, throwing
      and awaiting the SDK call; running a program against a description of
      the remote service gives its outcome together with the list of
      requests that were sent;
    - [JSON.parse] belongs to the JavaScript runtime, not to this repository:
      the adapter is verified for every parser ([Runtime]), and a reference
      parser following the JSON grammar is supplied for the worked examples;
    - [console.warn] and [console.error] are not modelled. *)

From stdpp Require Import base gmap list strings.
From Stdlib Require Import ZArith NArith Ascii.

Set Warnings "-register-all".

Open Scope N_scope.
Open Scope list_scope.

(** ** Strings *)

Module JSStr.

(** A JavaScript string: its UTF-16 code units, each below 65536. *)
Abbreviation JSString := (list N).

(** The code units of an ASCII literal of the source text. *)
Fixpoint js (s : string) : JSString :=
  match s with
  | EmptyString => []
  | String c s' => N_of_ascii c :: js s'
  end.

Arguments js : simpl never.

(** The double quote and the line feed, which a literal cannot hold. *)
Definition dq : JSString := [34].
Definition nl : JSString := [10].

(** ECMAScript [WhiteSpace] and [LineTerminator] code points: the characters
    [String.prototype.trim] strips. *)
Definition isWhiteSpace (c : N) : bool :=
  (c =? 9) || (c =? 11) || (c =? 12) || (c =? 32) || (c =? 160)
  || (c =? 5760) || ((8192 <=? c) && (c <=? 8202))
  || (c =? 8239) || (c =? 8287) || (c =? 12288) || (c =? 65279).

Definition isLineTerminator (c : N) : bool :=
  (c =? 10) || (c =? 13) || (c =? 8232) || (c =? 8233).

Definition isTrimmed (c : N) : bool := isWhiteSpace c || isLineTerminator c.

Fixpoint trimStart (s : JSString) : JSString :=
  match s with
  | [] => []
  | c :: s' => if isTrimmed c then trimStart s' else s
  end.

Definition trimEnd (s : JSString) : JSString := rev (trimStart (rev s)).

(** [String.prototype.trim] *)
Definition trim (s : JSString) : JSString := trimEnd (trimStart s).

(** [Array.prototype.join] on an array of strings. *)
Fixpoint join (sep : JSString) (parts : list JSString) : JSString :=
  match parts with
  | [] => []
  | [p] => p
  | p :: rest => p ++ sep ++ join sep rest
  end.

(** [s.split('\n')]: the lines of [s]. *)
Fixpoint lines (s : JSString) : list JSString :=
  match s with
  | [] => [[]]
  | c :: s' =>
      if c =? 10 then [] :: lines s'
      else match lines s' with
           | l :: ls => (c :: l) :: ls
           | [] => [[c]]
           end
  end.

(** [s] occurs in [t] as a contiguous run of code units. *)
Definition occurs_in (s t : JSString) : Prop :=
  ∃ before after, t = before ++ s ++ after.

End JSStr.
Export JSStr.

(** ** Values *)

Module JSVal.

(** A JavaScript value of the kinds this module meets.  A number carries the
    decimal literal [mant * 10 ^ exp10] it was read from; the binary64 value
    is that number rounded to nearest. *)
Inductive JSValue : Type :=
  | VUndefined
  | VNull
  | VBool (b : bool)
  | VNumber (mant exp10 : Z)
  | VString (s : JSString)
  | VArray (elems : list JSValue)
  | VObject (members : list (JSString * JSValue)).

(** A decimal rounds to [+0] or [-0] exactly when its magnitude is at most
    [2 ^ -1075], half of the least positive binary64 number. *)
Definition rounds_to_zero (mant exp10 : Z) : bool :=
  ((mant =? 0) || ((exp10 <? 0) && (Z.abs mant * 2 ^ 1075 <=? 10 ^ (- exp10))))%Z.

(** The abstract operation [ToBoolean]. *)
Definition ToBoolean (v : JSValue) : bool :=
  match v with
  | VUndefined | VNull => false
  | VBool b => b
  | VNumber m e => negb (rounds_to_zero m e)
  | VString s => match s with [] => false | _ => true end
  | VArray _ | VObject _ => true
  end.

(** The value bound to [key] by an object built by [JSON.parse]: when a name
    is repeated in the text the last member wins. *)
Fixpoint lookup_member (key : JSString) (members : list (JSString * JSValue))
  : option JSValue :=
  match members with
  | [] => None
  | (k, v) :: rest =>
      match lookup_member key rest with
      | Some w => Some w
      | None => if bool_decide (k = key) then Some v else None
      end
  end.

(** [Array.isArray] *)
Definition Array_isArray (v : JSValue) : bool :=
  match v with VArray _ => true | _ => false end.

(** The elements of an array value (empty for every other value). *)
Definition elements_of (v : JSValue) : list JSValue :=
  match v with VArray l => l | _ => [] end.

(** [typeof v === 'string'] *)
Definition typeof_string (v : JSValue) : bool :=
  match v with VString _ => true | _ => false end.

(** [Set.prototype.has] on a set of strings: a value that is not a string is
    never a member. *)
Definition Set_has (set : gset JSString) (v : JSValue) : bool :=
  match v with VString s => bool_decide (s ∈ set) | _ => false end.

(** The number of elements of [l] that are the string [s]. *)
Definition is_the_string (s : JSString) (v : JSValue) : bool :=
  match v with VString t => bool_decide (t = s) | _ => false end.

Definition occurrences (s : JSString) (l : list JSValue) : nat :=
  length (List.filter (is_the_string s) l).

End JSVal.
Export JSVal.

(** ** Effects: throwing and awaiting the SDK *)

Module Effects.

(** A value that is thrown, or with which a promise is rejected.  Only
    [instanceof Error] is ever asked of it. *)
Inductive Thrown : Type :=
  | ErrorObject (name message : JSString)
  | NonError (v : JSValue).

(** [e instanceof Error]: true of [Error] and of its subclasses. *)
Definition instanceof_Error (e : Thrown) : bool :=
  match e with ErrorObject _ _ => true | NonError _ => false end.

(** [new Error(message)] *)
Definition new_Error (message : JSString) : Thrown :=
  ErrorObject (js "Error") message.

(** The errors the runtime raises inside the [try] block.  Their wording is
    the engine's; the handler never reads it. *)
Definition TypeError_undefined_trim : Thrown :=
  ErrorObject (js "TypeError")
    (js "Cannot read properties of undefined (reading 'trim')").

Definition TypeError_nullish_get : Thrown :=
  ErrorObject (js "TypeError") (js "Cannot read properties of null or undefined").

Definition SyntaxError_JSON : Thrown :=
  ErrorObject (js "SyntaxError") (js "Unexpected token in JSON").

(** The [responseSchema] of a request. *)
Inductive Schema : Type :=
  | TypeSTRING (description : JSString)
  | TypeARRAY (items : Schema) (description : JSString)
  | TypeOBJECT (properties : list (JSString * Schema)) (required : list JSString).

Record GenerationConfig := {
  responseMimeType : JSString;
  responseSchema : Schema
}.

(** The client built by [new GoogleGenAI({ apiKey })]. *)
Record GoogleGenAI := { apiKey : JSString }.

(** One call of [ai.models.generateContent]: the client it goes through and
    the argument object. *)
Record Request := {
  client : GoogleGenAI;
  model : JSString;
  contents : JSString;
  config : GenerationConfig
}.

(** What the adapter reads of a [GenerateContentResponse]: its [text], which
    the SDK leaves [undefined] when the response has no text part. *)
Record GenerateContentResponse := { text : option JSString }.

(** How the promise returned by the SDK settles. *)
Inductive Settlement : Type :=
  | Fulfilled (response : GenerateContentResponse)
  | Rejected (reason : Thrown).

(** The remote service as the adapter sees it: given the requests sent so
    far and a new request, how the call settles; [None] when it never does. *)
Definition Service : Type := list Request → Request → option Settlement.

(** A program: it returns, throws, or sends one request to the SDK and goes
    on from the way the promise settles. *)
Inductive Prog (A : Type) : Type :=
  | Ret (a : A)
  | Throw (e : Thrown)
  | Call (request : Request) (k : Settlement → Prog A).
Arguments Ret {A} a.
Arguments Throw {A} e.
Arguments Call {A} request k.

Fixpoint bind {A B : Type} (p : Prog A) (f : A → Prog B) : Prog B :=
  match p with
  | Ret a => f a
  | Throw e => Throw e
  | Call request k => Call request (λ settled, bind (k settled) f)
  end.

#[export] Instance Prog_ret : MRet Prog := @Ret.
#[export] Instance Prog_bind : MBind Prog := λ A B f p, bind p f.

(** [await sdk_call]: the response of a fulfilled promise; a rejected one
    throws its reason here. *)
Definition await (request : Request) : Prog GenerateContentResponse :=
  Call request (λ settled,
    match settled with
    | Fulfilled response => Ret response
    | Rejected reason => Throw reason
    end).

(** [try { body } catch (error) { handler }] *)
Fixpoint try_catch {A : Type} (body : Prog A) (handler : Thrown → Prog A)
  : Prog A :=
  match body with
  | Ret a => Ret a
  | Throw e => handler e
  | Call request k => Call request (λ settled, try_catch (k settled) handler)
  end.

(** What the caller of an async function observes. *)
Inductive Outcome (A : Type) : Type :=
  | Returns (a : A)
  | Throws (e : Thrown)
  | Hangs.
Arguments Returns {A} a.
Arguments Throws {A} e.
Arguments Hangs {A}.

(** Running a program against a service, from the requests already sent:
    the outcome and the requests sent by the end. *)
Fixpoint exec {A : Type} (service : Service) (p : Prog A) (sent : list Request)
  : Outcome A * list Request :=
  match p with
  | Ret a => (Returns a, sent)
  | Throw e => (Throws e, sent)
  | Call request k =>
      match service sent request with
      | Some settled => exec service (k settled) (sent ++ [request])
      | None => (Hangs, sent ++ [request])
      end
  end.

Definition run {A : Type} (service : Service) (p : Prog A)
  : Outcome A * list Request :=
  exec service p [].

End Effects.
Export Effects.

(** ** The runtime's JSON parser *)

(** [JSON.parse] on a string: the parsed value, or [None] where it throws a
    [SyntaxError]. *)
Class Runtime := { JSON_parse : JSString → option JSValue }.

(** ** The adapter *)

Module AISuggestionEngine.

(** Modelled from the spec: the [Remedy] type of [../types], of which the
    adapter reads the fields [name] and [abbreviation], both strings. *)
Record Remedy := { name : JSString; abbreviation : JSString }.

(** The module-level handle [ai]: a client when [process.env.API_KEY] is a
    non-empty string, [null] otherwise. *)
Definition ai (API_KEY : option JSString) : option GoogleGenAI :=
  match API_KEY with
  | Some key => if ToBoolean (VString key) then Some {| apiKey := key |} else None
  | None => None
  end.

Definition not_configured_message : JSString :=
  js "Gemini API key is not configured. Please set VITE_API_KEY in a .env.local file and restart the server.".

Definition service_failed_message : JSString :=
  js "Failed to get suggestions from AI. It's possible the API key is invalid or the service is unavailable.".

Definition unknown_error_message : JSString :=
  js "An unknown error occurred while fetching AI suggestions.".

(** [`- ${r.name} (${r.abbreviation})`] *)
Definition remedy_line (r : Remedy) : JSString :=
  js "- " ++ name r ++ js " (" ++ abbreviation r ++ js ")".

Definition remedyListForPrompt (remedies : list Remedy) : JSString :=
  join nl (map remedy_line remedies).

(** The sentences of the template that tell the service how to answer. *)
Definition answer_format_sentence : JSString :=
  js "provide your answer as a JSON object with a single key " ++ dq
  ++ js "remedies" ++ dq
  ++ js " which contains an array of the remedy abbreviations.".

Definition empty_array_sentence : JSString :=
  js "If no remedies seem appropriate, return an empty array within the JSON object.".

Definition no_explanation_sentence : JSString :=
  js "Do not include any explanation.".

(** The template literal of the source: three runs of fixed text around
    the two substitutions.  The first run ends, and the second begins, with
    the double quote that encloses the symptoms. *)
Definition template_head : JSString :=
  nl
  ++ js "    You are an expert in homeopathy. Based on the following symptoms, suggest the most relevant remedies." ++ nl
  ++ js "    " ++ nl
  ++ js "    Symptoms: " ++ dq.

Definition template_middle : JSString :=
  dq ++ nl
  ++ js "    " ++ nl
  ++ js "    Refer ONLY to the following list of available remedies and "
  ++ answer_format_sentence
  ++ js " For example: {" ++ dq ++ js "remedies" ++ dq ++ js ": ["
  ++ dq ++ js "ARN" ++ dq ++ js ", " ++ dq ++ js "NUX-V" ++ dq ++ js "]}." ++ nl
  ++ js "    " ++ empty_array_sentence ++ js " " ++ no_explanation_sentence ++ nl
  ++ nl
  ++ js "    Available Remedies:" ++ nl
  ++ js "    ".

Definition template_tail : JSString := nl ++ js "  ".

Definition prompt (symptoms : JSString) (remedies : list Remedy) : JSString :=
  template_head ++ symptoms ++ template_middle
  ++ remedyListForPrompt remedies ++ template_tail.

Definition request_config : GenerationConfig := {|
  responseMimeType := js "application/json";
  responseSchema :=
    TypeOBJECT
      [(js "remedies",
        TypeARRAY (TypeSTRING (js "The abbreviation of a suggested remedy."))
                  (js "An array of suggested remedy abbreviations."))]
      [js "remedies"]
|}.

(** The argument of [ai.models.generateContent], sent through [ai]. *)
Definition generateContent_args (ai : GoogleGenAI) (prompt : JSString) : Request := {|
  client := ai;
  model := js "gemini-2.5-flash";
  contents := prompt;
  config := request_config
|}.

(** [response.text.trim()] *)
Definition text_trim (response : GenerateContentResponse) : Prog JSString :=
  match text response with
  | Some t => Ret (trim t)
  | None => Throw TypeError_undefined_trim
  end.

(** [JSON.parse(jsonString)] *)
Definition parse `{Runtime} (jsonString : JSString) : Prog JSValue :=
  match JSON_parse jsonString with
  | Some v => Ret v
  | None => Throw SyntaxError_JSON
  end.

(** [v.remedies]: a [TypeError] on [null] and [undefined]; the member of an
    object; [undefined] on every other value, none of which has a property
    of that name. *)
Definition get_remedies (v : JSValue) : Prog JSValue :=
  match v with
  | VUndefined | VNull => Throw TypeError_nullish_get
  | VObject members => Ret (default VUndefined (lookup_member (js "remedies") members))
  | _ => Ret VUndefined
  end.

Definition getAiSuggestions `{Runtime} (ai : option GoogleGenAI)
    (symptoms : JSString) (remedies : list Remedy) : Prog (list JSValue) :=
  match ai with
  | None => Throw (new_Error not_configured_message)
  | Some ai =>
      let prompt := prompt symptoms remedies in
      try_catch
        (response ← await (generateContent_args ai prompt);
         jsonString ← text_trim response;
         result ← parse jsonString;
         is_array ← (if ToBoolean result
                    then result_remedies ← get_remedies result;
                         Ret (Array_isArray result_remedies)
                    else Ret false);
         if is_array : bool then
           let validAbbreviations : gset JSString :=
             list_to_set (map abbreviation remedies) in
           result_remedies ← get_remedies result;
           Ret (List.filter
                  (λ abbr, typeof_string abbr && Set_has validAbbreviations abbr)
                  (elements_of result_remedies))
         else Ret [])
        (λ error,
           if instanceof_Error error
           then Throw (new_Error service_failed_message)
           else Throw (new_Error unknown_error_message))
  end.

End AISuggestionEngine.
Export AISuggestionEngine.

(** ** A reference JSON parser *)

(** A recursive-descent parser for the JSON grammar (ECMA-404), the language
    [JSON.parse] accepts.  It serves the worked examples; the theorems about
    the adapter hold for every [Runtime]. *)
Module JSONRef.

Definition is_ws (c : N) : bool :=
  (c =? 9) || (c =? 10) || (c =? 13) || (c =? 32).

Fixpoint skip_ws (s : JSString) : JSString :=
  match s with
  | c :: s' => if is_ws c then skip_ws s' else s
  | [] => []
  end.

Definition is_digit (c : N) : bool := (48 <=? c) && (c <=? 57).

Definition hex_value (c : N) : option N :=
  if is_digit c then Some (c - 48)
  else if (65 <=? c) && (c <=? 70) then Some (c - 55)
  else if (97 <=? c) && (c <=? 102) then Some (c - 87)
  else None.

(** The code unit of [\uXXXX]. *)
Definition hex4 (a b c d : N) : option N :=
  match hex_value a, hex_value b, hex_value c, hex_value d with
  | Some a, Some b, Some c, Some d => Some (((a * 16 + b) * 16 + c) * 16 + d)
  | _, _, _, _ => None
  end.

(** The code unit of a one-letter escape. *)
Definition simple_escape (c : N) : option N :=
  if (c =? 34) || (c =? 92) || (c =? 47) then Some c
  else if c =? 98 then Some 8
  else if c =? 102 then Some 12
  else if c =? 110 then Some 10
  else if c =? 114 then Some 13
  else if c =? 116 then Some 9
  else None.

(** The rest of a string after its opening quote; [acc] holds the code
    units read so far, last first. *)
Fixpoint parse_chars (s acc : JSString) : option (JSString * JSString) :=
  match s with
  | [] => None
  | c :: r =>
      if c =? 34 then Some (rev acc, r)
      else if c =? 92 then
        match r with
        | [] => None
        | e :: r' =>
            if e =? 117 then
              match r' with
              | h1 :: h2 :: h3 :: h4 :: r'' =>
                  match hex4 h1 h2 h3 h4 with
                  | Some u => parse_chars r'' (u :: acc)
                  | None => None
                  end
              | _ => None
              end
            else
              match simple_escape e with
              | Some u => parse_chars r' (u :: acc)
              | None => None
              end
        end
      else if c <? 32 then None
      else parse_chars r (c :: acc)
  end.

(** The longest run of digits at the head of [s], and what follows. *)
Fixpoint take_digits (s : JSString) : list N * JSString :=
  match s with
  | c :: r =>
      if is_digit c then let '(ds, rest) := take_digits r in (c - 48 :: ds, rest)
      else ([], s)
  | [] => ([], [])
  end.

(** The number written by decimal digits, most significant first. *)
Definition digits_value (ds : list N) : Z :=
  fold_left (λ acc d, acc * 10 + Z.of_N d)%Z ds 0%Z.

(** [int]: a lone zero, or a run of digits that does not start with zero. *)
Definition parse_int (s : JSString) : option (list N * JSString) :=
  match s with
  | c :: r =>
      if c =? 48 then Some ([0], r)
      else if is_digit c then Some (take_digits s)
      else None
  | [] => None
  end.

(** [frac]: nothing, or a point and at least one digit. *)
Definition parse_frac (s : JSString) : option (list N * JSString) :=
  match s with
  | c :: r =>
      if c =? 46 then
        match take_digits r with
        | ([], _) => None
        | (ds, rest) => Some (ds, rest)
        end
      else Some ([], s)
  | [] => Some ([], [])
  end.

(** [exp]: nothing, or [e] or [E], an optional sign and at least one digit. *)
Definition parse_exp (s : JSString) : option (Z * JSString) :=
  match s with
  | c :: r =>
      if (c =? 101) || (c =? 69) then
        let '(negative, r1) :=
          match r with
          | d :: r' => if d =? 45 then (true, r')
                       else if d =? 43 then (false, r') else (false, r)
          | [] => (false, r)
          end in
        match take_digits r1 with
        | ([], _) => None
        | (ds, rest) =>
            Some (if negative then (- digits_value ds)%Z else digits_value ds, rest)
        end
      else Some (0%Z, s)
  | [] => Some (0%Z, [])
  end.

Definition parse_number (s : JSString) : option (JSValue * JSString) :=
  let '(negative, s1) :=
    match s with
    | c :: r => if c =? 45 then (true, r) else (false, s)
    | [] => (false, s)
    end in
  match parse_int s1 with
  | None => None
  | Some (int_digits, s2) =>
      match parse_frac s2 with
      | None => None
      | Some (frac_digits, s3) =>
          match parse_exp s3 with
          | None => None
          | Some (e, s4) =>
              let m := digits_value (int_digits ++ frac_digits) in
              Some (VNumber (if negative then - m else m)%Z
                            (e - Z.of_nat (length frac_digits))%Z, s4)
          end
      end
  end.

(** [s] without the prefix [word], when it starts with it. *)
Fixpoint strip_prefix (word s : JSString) : option JSString :=
  match word, s with
  | [], _ => Some s
  | w :: word', c :: s' => if w =? c then strip_prefix word' s' else None
  | _ :: _, [] => None
  end.

(** A value, the elements of an array after its bracket, and the members of
    an object after its brace.  Each call consumes input before the next one
    at the same level, so fuel twice the length of the text is enough. *)
Fixpoint parse_value (fuel : nat) (s : JSString) : option (JSValue * JSString) :=
  match fuel with
  | O => None
  | S fuel =>
      match skip_ws s with
      | [] => None
      | c :: r =>
          if c =? 123 then
            match skip_ws r with
            | d :: r' => if d =? 125 then Some (VObject [], r')
                         else parse_members fuel r []
            | [] => None
            end
          else if c =? 91 then
            match skip_ws r with
            | d :: r' => if d =? 93 then Some (VArray [], r')
                         else parse_elements fuel r []
            | [] => None
            end
          else if c =? 34 then
            match parse_chars r [] with
            | Some (str, rest) => Some (VString str, rest)
            | None => None
            end
          else if c =? 116 then
            (λ rest, (VBool true, rest)) <$> strip_prefix (js "true") (c :: r)
          else if c =? 102 then
            (λ rest, (VBool false, rest)) <$> strip_prefix (js "false") (c :: r)
          else if c =? 110 then
            (λ rest, (VNull, rest)) <$> strip_prefix (js "null") (c :: r)
          else parse_number (c :: r)
      end
  end
with parse_elements (fuel : nat) (s : JSString) (acc : list JSValue)
  : option (JSValue * JSString) :=
  match fuel with
  | O => None
  | S fuel =>
      match parse_value fuel s with
      | None => None
      | Some (v, r) =>
          match skip_ws r with
          | c :: r' =>
              if c =? 44 then parse_elements fuel r' (v :: acc)
              else if c =? 93 then Some (VArray (rev (v :: acc)), r')
              else None
          | [] => None
          end
      end
  end
with parse_members (fuel : nat) (s : JSString) (acc : list (JSString * JSValue))
  : option (JSValue * JSString) :=
  match fuel with
  | O => None
  | S fuel =>
      match skip_ws s with
      | q :: r =>
          if q =? 34 then
            match parse_chars r [] with
            | None => None
            | Some (key, r1) =>
                match skip_ws r1 with
                | colon :: r2 =>
                    if colon =? 58 then
                      match parse_value fuel r2 with
                      | None => None
                      | Some (v, r3) =>
                          match skip_ws r3 with
                          | c :: r4 =>
                              if c =? 44 then parse_members fuel r4 ((key, v) :: acc)
                              else if c =? 125
                              then Some (VObject (rev ((key, v) :: acc)), r4)
                              else None
                          | [] => None
                          end
                      end
                    else None
                | [] => None
                end
            end
          else None
      | [] => None
      end
  end.

(** A whole text: one value, white space around it, nothing else. *)
Definition parse_text (s : JSString) : option JSValue :=
  match parse_value (2 * length s + 2) s with
  | Some (v, rest) =>
      match skip_ws rest with
      | [] => Some v
      | _ :: _ => None
      end
  | None => None
  end.

Definition runtime : Runtime := {| JSON_parse := parse_text |}.

(** Text written with [`] for the double quote, as code units. *)
Definition quoted (s : string) : JSString :=
  map (λ c, if c =? 96 then 34 else c) (js s).

End JSONRef.

(** ** The error categories of the specification *)

(** The source has no error classes: every failure it raises is a plain
    [Error], told apart by its message.  [ConfigurationError] is the error of
    the missing client; [SuggestionServiceError] is either error raised by
    the [catch] block. *)
Definition ConfigurationError (e : Thrown) : Prop :=
  e = new_Error not_configured_message.

Definition SuggestionServiceError (e : Thrown) : Prop :=
  e = new_Error service_failed_message ∨ e = new_Error unknown_error_message.

(** The error the [catch] block raises for a caught value. *)
Definition wrapped (caught : Thrown) : Thrown :=
  new_Error (if instanceof_Error caught
             then service_failed_message else unknown_error_message).

(** An element the specification keeps: a string that is the abbreviation of
    one of the candidates. *)
Definition is_candidate_abbreviation (remedies : list Remedy) (v : JSValue) : bool :=
  match v with
  | VString s => bool_decide (s ∈ map abbreviation remedies)
  | _ => false
  end.

(** The array under the key [remedies] of a parsed value; empty when the
    value is not an object or the key does not hold an array. *)
Definition remedies_array (result : JSValue) : list JSValue :=
  match result with
  | VObject members =>
      match lookup_member (js "remedies") members with
      | Some (VArray arr) => arr
      | _ => []
      end
  | _ => []
  end.

(** ** Services and inputs for the worked examples *)

Module Fixtures.

Definition client0 : GoogleGenAI := {| apiKey := js "test-key" |}.

Definition arnica : Remedy :=
  {| name := js "Arnica montana"; abbreviation := js "ARN" |}.
Definition nux_vomica : Remedy :=
  {| name := js "Nux vomica"; abbreviation := js "NUX-V" |}.
Definition belladonna : Remedy :=
  {| name := js "Belladonna"; abbreviation := js "BELL" |}.

Definition candidates : list Remedy := [arnica; nux_vomica; belladonna].

Definition symptoms0 : JSString := js "bruising after a fall".

(** A service that answers every request with the same text. *)
Definition replies_with (t : JSString) : Service :=
  λ _ _, Some (Fulfilled {| text := Some t |}).

(** A service whose every call is rejected with the same reason. *)
Definition rejects_with (reason : Thrown) : Service :=
  λ _ _, Some (Rejected reason).

(** The adapter run with the reference parser. *)
Definition suggest (service : Service) (handle : option GoogleGenAI)
    (symptoms : JSString) (remedies : list Remedy)
  : Outcome (list JSValue) * list Request :=
  run service (@getAiSuggestions JSONRef.runtime handle symptoms remedies).

End Fixtures.

(** ** Responses that follow the requested schema *)

(** A value follows a schema of the request, read as the OpenAPI subset its
    vocabulary comes from: a string; an array whose elements follow [items];
    an object that has every [required] name and whose listed properties,
    where present, follow their schemas.  Other properties are allowed. *)
Fixpoint conforms (schema : Schema) (v : JSValue) : bool :=
  match schema, v with
  | TypeSTRING _, VString _ => true
  | TypeARRAY items _, VArray elems => forallb (conforms items) elems
  | TypeOBJECT properties required, VObject members =>
      forallb (λ key, bool_decide (is_Some (lookup_member key members))) required
      && forallb (λ property,
                    match lookup_member (fst property) members with
                    | Some w => conforms (snd property) w
                    | None => true
                    end) properties
  | _, _ => false
  end.

(** ** More services and inputs for the worked examples *)

Module MoreFixtures.

(** A service whose responses carry no text. *)
Definition replies_without_text : Service :=
  λ _ _, Some (Fulfilled {| text := None |}).

(** A service whose calls never settle. *)
Definition never_settles : Service := λ _ _, None.

(** The candidates of [Fixtures] in another order, under other names, one of
    them twice. *)
Definition candidates_shuffled : list Remedy :=
  [ {| name := js "Deadly nightshade"; abbreviation := js "BELL" |};
    {| name := js "Poison nut"; abbreviation := js "NUX-V" |};
    {| name := js "Leopard's bane"; abbreviation := js "ARN" |};
    {| name := js "Belladonna"; abbreviation := js "BELL" |} ].

(** A candidate whose name holds a line feed. *)
Definition arnica_two_lines : Remedy :=
  {| name := js "Arnica" ++ nl ++ js "montana"; abbreviation := js "ARN" |}.

End MoreFixtures.

(** * Properties *)

(** ** Trimming *)

Lemma trimStart_unpadded (c : N) (s : JSString) :
  isTrimmed c = false → trimStart (c :: s) = c :: s.
Proof. intros Hc. simpl. by rewrite Hc. Qed.

(** What [trimStart] leaves does not start with white space. *)
Lemma trimStart_head (s : JSString) (c : N) (rest : JSString) :
  trimStart s = c :: rest → isTrimmed c = false.
Proof.
  induction s as [|d s IH]; [done|]. simpl.
  destruct (isTrimmed d) eqn:Hd; [done|]. by intros [= <- _].
Qed.

(** [trimStart] drops a prefix made of white space only. *)
Lemma trimStart_suffix (s : JSString) :
  ∃ dropped, s = dropped ++ trimStart s ∧ forallb isTrimmed dropped = true.
Proof.
  induction s as [|c s (dropped & Hs & Hall)]; [by exists []|]. simpl.
  destruct (isTrimmed c) eqn:Hc.
  - exists (c :: dropped). simpl. rewrite Hc, Hall. by rewrite <- Hs.
  - by exists [].
Qed.

(** A text that neither starts nor ends with white space is left alone. *)
Lemma trim_unpadded (c d : N) (s : JSString) :
  isTrimmed c = false → isTrimmed d = false →
  trim (c :: s ++ [d]) = c :: s ++ [d].
Proof.
  intros Hc Hd. unfold trim, trimEnd.
  rewrite (trimStart_unpadded c _ Hc).
  replace (rev (c :: s ++ [d])) with (d :: rev (c :: s)).
  - rewrite (trimStart_unpadded d _ Hd).
    change (d :: rev (c :: s)) with (rev [d] ++ rev (c :: s)).
    by rewrite <- rev_app_distr, rev_involutive.
  - change (c :: s ++ [d]) with ((c :: s) ++ [d]). by rewrite rev_app_distr.
Qed.

(** ** Running programs *)

Section Running.
Context {A B : Type} (service : Service).

Lemma exec_bind (p : Prog A) (f : A → Prog B) sent :
  exec service (p ≫= f) sent =
  match exec service p sent with
  | (Returns a, sent') => exec service (f a) sent'
  | (Throws e, sent') => (Throws e, sent')
  | (Hangs, sent') => (Hangs, sent')
  end.
Proof.
  revert sent. induction p as [a|e|request k IH]; intros sent; simpl; try done.
  destruct (service sent request) as [settled|]; [apply IH | done].
Qed.

Lemma exec_try_catch (body : Prog A) (handler : Thrown → Prog A) sent :
  exec service (try_catch body handler) sent =
  match exec service body sent with
  | (Throws e, sent') => exec service (handler e) sent'
  | other => other
  end.
Proof.
  revert sent. induction body as [a|e|request k IH]; intros sent; simpl; try done.
  destruct (service sent request) as [settled|]; [apply IH | done].
Qed.

Lemma exec_await request sent :
  exec service (await request) sent =
  (match service sent request with
   | Some (Fulfilled response) => Returns response
   | Some (Rejected reason) => Throws reason
   | None => Hangs
   end, sent ++ [request]).
Proof.
  simpl. by destruct (service sent request) as [[]|].
Qed.
End Running.

(** ** The adapter, step by step *)

Section Adapter.
Context {rt : Runtime}.
Implicit Types (service : Service) (client : GoogleGenAI)
  (symptoms : JSString) (remedies : list Remedy).

(** The filter of the source keeps what the specification keeps. *)
Lemma filter_predicate remedies (abbr : JSValue) :
  typeof_string abbr
    && Set_has (list_to_set (map abbreviation remedies)) abbr
  = is_candidate_abbreviation remedies abbr.
Proof.
  destruct abbr; simpl; try done.
  apply bool_decide_ext. by rewrite elem_of_list_to_set.
Qed.

(** Lines 59 to 66: the shape test and the filter never throw. *)
Lemma exec_shape_and_filter service remedies (result : JSValue) sent :
  exec service
    (is_array ← (if ToBoolean result
                then result_remedies ← get_remedies result;
                     Ret (Array_isArray result_remedies)
                else Ret false);
     if is_array : bool then
       let validAbbreviations : gset JSString :=
         list_to_set (map abbreviation remedies) in
       result_remedies ← get_remedies result;
       Ret (List.filter
              (λ abbr, typeof_string abbr && Set_has validAbbreviations abbr)
              (elements_of result_remedies))
     else Ret []) sent
  = (Returns (List.filter (is_candidate_abbreviation remedies)
                (remedies_array result)), sent).
Proof.
  assert (Hfilter : ∀ l,
    List.filter (λ abbr, typeof_string abbr
       && Set_has (list_to_set (map abbreviation remedies)) abbr) l
    = List.filter (is_candidate_abbreviation remedies) l).
  { intros l. apply filter_ext. intros a. apply filter_predicate. }
  destruct result as [| |b|m e|s|elems|members]; simpl; try done.
  - by destruct b.
  - by destruct (negb (rounds_to_zero m e)).
  - by destruct s.
  - destruct (lookup_member (js "remedies") members) as [[]|]; simpl; try done.
    by rewrite Hfilter.
Qed.

(** What a call with a client does, by the way the SDK call settles. *)
Lemma exec_configured service client symptoms remedies sent :
  exec service (getAiSuggestions (Some client) symptoms remedies) sent =
  (match service sent (generateContent_args client (prompt symptoms remedies)) with
   | None => Hangs
   | Some (Rejected reason) => Throws (wrapped reason)
   | Some (Fulfilled response) =>
       match text response with
       | None => Throws (new_Error service_failed_message)
       | Some t =>
           match JSON_parse (trim t) with
           | None => Throws (new_Error service_failed_message)
           | Some result =>
               Returns (List.filter (is_candidate_abbreviation remedies)
                          (remedies_array result))
           end
       end
   end, sent ++ [generateContent_args client (prompt symptoms remedies)]).
Proof.
  unfold getAiSuggestions.
  rewrite exec_try_catch, exec_bind, exec_await.
  destruct (service sent _) as [[[[t|]]|reason]|]; cbv beta iota; try done.
  - rewrite exec_bind. cbn [text_trim text exec].
    rewrite exec_bind. unfold parse.
    destruct (JSON_parse (trim t)) as [result|]; cbn [exec]; [|done].
    by rewrite exec_shape_and_filter.
  - by destruct reason.
Qed.

Lemma exec_not_configured service symptoms remedies sent :
  exec service (getAiSuggestions None symptoms remedies) sent =
  (Throws (new_Error not_configured_message), sent).
Proof. done. Qed.
End Adapter.

(** ** What the filter keeps *)

Lemma is_candidate_abbreviation_spec (remedies : list Remedy) (v : JSValue) :
  is_candidate_abbreviation remedies v = true ↔
  ∃ s r, v = VString s ∧ r ∈ remedies ∧ abbreviation r = s.
Proof.
  split.
  - destruct v as [| | | |s| |]; simpl; try done.
    intros Hin%bool_decide_eq_true.
    apply list_elem_of_In, in_map_iff in Hin as (r & Hr & Hin).
    exists s, r. by rewrite list_elem_of_In.
  - intros (s & r & -> & Hin & <-). simpl. apply bool_decide_eq_true.
    apply list_elem_of_In, in_map. by apply list_elem_of_In.
Qed.

Lemma filter_no_candidates (l : list JSValue) :
  List.filter (is_candidate_abbreviation []) l = [].
Proof.
  induction l as [|v l IH]; [done|]. simpl.
  by destruct v.
Qed.

Lemma occurrences_filter (remedies : list Remedy) (s : JSString) (l : list JSValue) :
  s ∈ map abbreviation remedies →
  occurrences s (List.filter (is_candidate_abbreviation remedies) l)
  = occurrences s l.
Proof.
  intros Hs. unfold occurrences. induction l as [|v l IH]; [done|].
  simpl. destruct (is_candidate_abbreviation remedies v) eqn:Hkeep; simpl.
  - destruct (is_the_string s v); simpl; by rewrite IH.
  - destruct (is_the_string s v) eqn:Hv; [|done].
    destruct v as [| | | |t| |]; simpl in *; try done.
    apply bool_decide_eq_true in Hv as ->.
    by rewrite bool_decide_eq_true_2 in Hkeep.
Qed.

Lemma messages_distinct :
  unknown_error_message ≠ service_failed_message
  ∧ not_configured_message ≠ service_failed_message
  ∧ not_configured_message ≠ unknown_error_message.
Proof. by vm_compute. Qed.

(** ** The prompt *)

Lemma lines_one (s : JSString) : 10 ∉ s → lines s = [s].
Proof.
  induction s as [|c s IH]; [done|]. intros Hnl.
  apply not_elem_of_cons in Hnl as [Hc Hs]. simpl.
  destruct (N.eqb_spec c 10) as [->|_]; [done|]. by rewrite IH.
Qed.

Lemma lines_app (s t : JSString) :
  10 ∉ s → lines (s ++ 10 :: t) = s :: lines t.
Proof.
  induction s as [|c s IH]; [done|]. intros Hnl.
  apply not_elem_of_cons in Hnl as [Hc Hs]. simpl.
  destruct (N.eqb_spec c 10) as [->|_]; [done|]. by rewrite IH.
Qed.

Lemma remedy_line_one_line (r : Remedy) :
  10 ∉ name r → 10 ∉ abbreviation r → 10 ∉ remedy_line r.
Proof.
  intros Hname Habbr. unfold remedy_line.
  assert (∀ lit : string, bool_decide (10 ∈ js lit) = false → 10 ∉ js lit)
    as Hlit by (intros lit; apply bool_decide_eq_false).
  rewrite !elem_of_app. intros [H|[H|[H|[H|H]]]]; try done;
    by apply Hlit in H.
Qed.

Lemma lines_of_remedy_list (remedies : list Remedy) :
  remedies ≠ [] →
  Forall (λ r, (10 ∉ name r) ∧ (10 ∉ abbreviation r)) remedies →
  lines (join nl (map remedy_line remedies)) = map remedy_line remedies.
Proof.
  intros Hne Hall. induction Hall as [|r rest [Hname Habbr] Hrest IH]; [done|].
  destruct rest as [|r' rest].
  - change (lines (remedy_line r) = [remedy_line r]).
    by apply lines_one, remedy_line_one_line.
  - change (join nl (map remedy_line (r :: r' :: rest)))
      with (remedy_line r ++ 10 :: join nl (map remedy_line (r' :: rest))).
    rewrite lines_app; [|by apply remedy_line_one_line].
    by rewrite IH.
Qed.

(** The candidate block, split at line feeds: an empty block for no
    candidate, else one line per candidate when no name or abbreviation
    holds a line feed. *)
Lemma lines_of_remedy_list_all (remedies : list Remedy) :
  Forall (λ r, (10 ∉ name r) ∧ (10 ∉ abbreviation r)) remedies →
  lines (join nl (map remedy_line remedies))
  = match remedies with
    | [] => [[]]
    | _ :: _ => map remedy_line remedies
    end.
Proof.
  intros Hall. destruct remedies as [|r rest]; [done|].
  by apply lines_of_remedy_list.
Qed.

Lemma occurs_in_app_r (s t before : JSString) :
  occurs_in s t → occurs_in s (before ++ t).
Proof.
  intros (b & a & ->). exists (before ++ b), a. by rewrite <- app_assoc.
Qed.

Lemma occurs_in_app_l (s t after : JSString) :
  occurs_in s t → occurs_in s (t ++ after).
Proof.
  intros (b & a & ->). exists b, (a ++ after). by rewrite <- !app_assoc.
Qed.

Lemma occurs_in_trans (s t u : JSString) :
  occurs_in s t → occurs_in t u → occurs_in s u.
Proof.
  intros (b & a & ->) (b' & a' & ->).
  exists (b' ++ b), (a ++ a'). by rewrite <- !app_assoc.
Qed.

(** Every part occurs in the joined text. *)
Lemma occurs_in_join (sep part : JSString) (parts : list JSString) :
  part ∈ parts → occurs_in part (join sep parts).
Proof.
  induction parts as [|p parts IH]; [by intros ?%elem_of_nil|].
  intros [->|Hin]%elem_of_cons.
  - destruct parts as [|q parts].
    + exists [], []. by rewrite app_nil_r.
    + by exists [], (sep ++ join sep (q :: parts)).
  - destruct parts as [|q parts]; [by apply elem_of_nil in Hin|].
    change (join sep (p :: q :: parts))
      with (p ++ sep ++ join sep (q :: parts)).
    by apply occurs_in_app_r, occurs_in_app_r, IH.
Qed.

(** The text of a candidate occurs in the prompt. *)
Lemma prompt_names_candidate (symptoms : JSString) (remedies : list Remedy)
    (r : Remedy) :
  r ∈ remedies →
  occurs_in (name r ++ js " (" ++ abbreviation r ++ js ")")
            (prompt symptoms remedies).
Proof.
  intros Hin. unfold prompt, remedyListForPrompt.
  do 3 apply occurs_in_app_r. apply occurs_in_app_l.
  apply (occurs_in_trans _ (remedy_line r)).
  - exists (js "- "), []. by rewrite app_nil_r.
  - apply occurs_in_join, list_elem_of_In, in_map. by apply list_elem_of_In.
Qed.

(** The symptoms stand in the prompt as written, between double quotes
    after the label. *)
Lemma prompt_quotes_symptoms (symptoms : JSString) (remedies : list Remedy) :
  occurs_in (js "Symptoms: " ++ dq ++ symptoms ++ dq)
            (prompt symptoms remedies).
Proof.
  assert (template_head
          = firstn 116 template_head ++ js "Symptoms: " ++ dq) as Hhead
    by by vm_compute.
  assert (template_middle = dq ++ skipn 1 template_middle) as Hmiddle
    by by vm_compute.
  unfold prompt. rewrite Hhead, Hmiddle.
  exists (firstn 116 template_head),
         (skipn 1 template_middle ++ remedyListForPrompt remedies
          ++ template_tail).
  by rewrite <- !app_assoc.
Qed.

(** A text that occurs in the fixed part after the symptoms occurs in every
    prompt. *)
Lemma prompt_holds_instruction (sentence symptoms : JSString)
    (remedies : list Remedy) :
  occurs_in sentence template_middle →
  occurs_in sentence (prompt symptoms remedies).
Proof.
  intros Hin. unfold prompt.
  by apply occurs_in_app_r, occurs_in_app_r, occurs_in_app_l.
Qed.

Lemma prompt_asks_for_json (symptoms : JSString) (remedies : list Remedy) :
  occurs_in (js "provide your answer as a JSON object with a single key "
             ++ dq ++ js "remedies" ++ dq
             ++ js " which contains an array of the remedy abbreviations.")
            (prompt symptoms remedies).
Proof.
  apply prompt_holds_instruction.
  exists (firstn 70 template_middle), (skipn 188 template_middle).
  by vm_compute.
Qed.

Lemma prompt_allows_empty (symptoms : JSString) (remedies : list Remedy) :
  occurs_in (js "If no remedies seem appropriate, return an empty array within the JSON object.")
            (prompt symptoms remedies).
Proof.
  apply prompt_holds_instruction.
  exists (firstn 238 template_middle), (skipn 316 template_middle).
  by vm_compute.
Qed.

Lemma prompt_forbids_explanation (symptoms : JSString) (remedies : list Remedy) :
  occurs_in (js "Do not include any explanation.") (prompt symptoms remedies).
Proof.
  apply prompt_holds_instruction.
  exists (firstn 317 template_middle), (skipn 348 template_middle).
  by vm_compute.
Qed.

(** * The claims *)

(** Each statement is about one call, made after any list [sent] of earlier
    requests; [service sent request] is the way the SDK call of this
    invocation settles. *)

Section Claims.
Context {rt : Runtime}.
Implicit Types (service : Service) (client : GoogleGenAI)
  (symptoms : JSString) (remedies : list Remedy) (sent : list Request).

(** C1, as amended.  When the SDK call is fulfilled and the trimmed text
    of the response is not valid JSON, [JSON.parse] throws inside the [try]
    block: the call fails with the service-failure error, after its one
    request, and returns nothing. *)
Theorem invalid_json_throws service client symptoms remedies sent (t : JSString) :
  service sent (generateContent_args client (prompt symptoms remedies))
    = Some (Fulfilled {| text := Some t |}) →
  JSON_parse (trim t) = None →
  exec service (getAiSuggestions (Some client) symptoms remedies) sent
  = (Throws (new_Error service_failed_message),
     sent ++ [generateContent_args client (prompt symptoms remedies)]).
Proof.
  intros Hsettled Hparse. rewrite exec_configured, Hsettled. simpl.
  by rewrite Hparse.
Qed.

(** C2.  Without a credential at module initialisation (the variable
    unset, or set to the empty string) the handle is [null], and every
    call, whatever its arguments and whatever the service would do, throws
    the configuration error and sends no request. *)
Theorem missing_credential_fails service symptoms remedies sent :
  (ai None = None ∧ ai (Some []) = None)
  ∧ exec service (getAiSuggestions (ai None) symptoms remedies) sent
    = (Throws (new_Error not_configured_message), sent)
  ∧ exec service (getAiSuggestions (ai (Some [])) symptoms remedies) sent
    = (Throws (new_Error not_configured_message), sent)
  ∧ ConfigurationError (new_Error not_configured_message).
Proof. done. Qed.

(** C3.  When the trimmed text parses to an object whose key [remedies]
    holds an array, the call returns the elements of that array that are
    strings and abbreviations of the candidates of this call, in the
    order of the array; an empty array gives an empty result. *)
Theorem array_response_filtered service client symptoms remedies sent
    (t : JSString) (members : list (JSString * JSValue)) (arr : list JSValue) :
  service sent (generateContent_args client (prompt symptoms remedies))
    = Some (Fulfilled {| text := Some t |}) →
  JSON_parse (trim t) = Some (VObject members) →
  lookup_member (js "remedies") members = Some (VArray arr) →
  exec service (getAiSuggestions (Some client) symptoms remedies) sent
  = (Returns (List.filter (is_candidate_abbreviation remedies) arr),
     sent ++ [generateContent_args client (prompt symptoms remedies)])
  ∧ (∀ v, is_candidate_abbreviation remedies v = true ↔
          ∃ s r, v = VString s ∧ r ∈ remedies ∧ abbreviation r = s)
  ∧ (arr = [] →
     fst (exec service (getAiSuggestions (Some client) symptoms remedies) sent)
     = Returns []).
Proof.
  intros Hsettled Hparse Hkey. rewrite exec_configured, Hsettled. simpl.
  rewrite Hparse. simpl. rewrite Hkey.
  split; [done|]. split; [apply is_candidate_abbreviation_spec|]. by intros ->.
Qed.

(** C4.  When the trimmed text parses to a value that is not an object
    with an array under [remedies] (a primitive, an array, an object
    without the key, or with another kind of value under it), the call
    returns the empty list and throws nothing. *)
Theorem other_shapes_give_empty service client symptoms remedies sent
    (t : JSString) (v : JSValue) :
  service sent (generateContent_args client (prompt symptoms remedies))
    = Some (Fulfilled {| text := Some t |}) →
  JSON_parse (trim t) = Some v →
  (∀ members arr, v = VObject members →
     lookup_member (js "remedies") members ≠ Some (VArray arr)) →
  exec service (getAiSuggestions (Some client) symptoms remedies) sent
  = (Returns [], sent ++ [generateContent_args client (prompt symptoms remedies)]).
Proof.
  intros Hsettled Hparse Hshape. rewrite exec_configured, Hsettled. simpl.
  rewrite Hparse.
  assert (remedies_array v = []) as ->; [|done].
  destruct v as [| | | | | |members]; try done. simpl.
  destruct (lookup_member (js "remedies") members) as [[]|] eqn:Hkey; try done.
  by destruct (Hshape members elems).
Qed.

(** C5.  When the SDK call throws or rejects, the call fails with a fresh
    [Error] built by the [catch] block: a service error carrying one of the
    two fixed summaries.  Which one depends only on whether the caught
    value is an [Error]; nothing else of it reaches the caller, and no
    result is returned. *)
Theorem service_failure_is_wrapped service client symptoms remedies sent
    (reason : Thrown) :
  service sent (generateContent_args client (prompt symptoms remedies))
    = Some (Rejected reason) →
  exec service (getAiSuggestions (Some client) symptoms remedies) sent
  = (Throws (wrapped reason),
     sent ++ [generateContent_args client (prompt symptoms remedies)])
  ∧ SuggestionServiceError (wrapped reason)
  ∧ (∀ other, instanceof_Error other = instanceof_Error reason →
       wrapped other = wrapped reason).
Proof.
  intros Hsettled. rewrite exec_configured, Hsettled. split; [done|]. split.
  - unfold SuggestionServiceError, wrapped. destruct reason; auto.
  - intros other Hsame. unfold wrapped. by rewrite Hsame.
Qed.
(** C6, as amended.  The request of every call carries as its contents
    the text of the template, written out below, with the symptoms as given
    between double quotes and the candidate list as the entries
    [- name (abbreviation)], one per candidate in order, joined by single
    line feeds.  So the symptoms and the text [name (abbreviation)] of every
    candidate occur in the prompt; the prompt asks for a JSON object with the
    single key [remedies] holding an array of abbreviations, allows an empty
    array, and forbids any explanation; and the candidate list is one line
    per candidate whenever no name and no abbreviation holds a line feed. *)
Theorem prompt_embeds_inputs :
  (∀ service client symptoms remedies sent,
     ∃ request,
       snd (exec service (getAiSuggestions (Some client) symptoms remedies) sent)
         = sent ++ [request]
       ∧ contents request
         = nl
           ++ js "    You are an expert in homeopathy. Based on the following symptoms, suggest the most relevant remedies." ++ nl
           ++ js "    " ++ nl
           ++ js "    Symptoms: " ++ dq ++ symptoms ++ dq ++ nl
           ++ js "    " ++ nl
           ++ js "    Refer ONLY to the following list of available remedies and provide your answer as a JSON object with a single key "
           ++ dq ++ js "remedies" ++ dq
           ++ js " which contains an array of the remedy abbreviations. For example: {"
           ++ dq ++ js "remedies" ++ dq ++ js ": [" ++ dq ++ js "ARN" ++ dq
           ++ js ", " ++ dq ++ js "NUX-V" ++ dq ++ js "]}." ++ nl
           ++ js "    If no remedies seem appropriate, return an empty array within the JSON object. Do not include any explanation." ++ nl
           ++ nl
           ++ js "    Available Remedies:" ++ nl
           ++ js "    "
           ++ join nl (map (λ r, js "- " ++ name r ++ js " ("
                                 ++ abbreviation r ++ js ")") remedies)
           ++ nl
           ++ js "  ")
  ∧ (∀ symptoms remedies,
       occurs_in (js "Symptoms: " ++ dq ++ symptoms ++ dq)
                 (prompt symptoms remedies))
  ∧ (∀ symptoms remedies r,
       r ∈ remedies →
       occurs_in (name r ++ js " (" ++ abbreviation r ++ js ")")
                 (prompt symptoms remedies))
  ∧ (∀ symptoms remedies,
       occurs_in (js "provide your answer as a JSON object with a single key "
                  ++ dq ++ js "remedies" ++ dq
                  ++ js " which contains an array of the remedy abbreviations.")
                 (prompt symptoms remedies)
       ∧ occurs_in (js "If no remedies seem appropriate, return an empty array within the JSON object.")
                   (prompt symptoms remedies)
       ∧ occurs_in (js "Do not include any explanation.")
                   (prompt symptoms remedies))
  ∧ (∀ remedies,
       Forall (λ r, (10 ∉ name r) ∧ (10 ∉ abbreviation r)) remedies →
       lines (join nl (map (λ r, js "- " ++ name r ++ js " ("
                                 ++ abbreviation r ++ js ")") remedies))
       = match remedies with
         | [] => [[]]
         | _ :: _ => map (λ r, js "- " ++ name r ++ js " ("
                               ++ abbreviation r ++ js ")") remedies
         end).
Proof.
  repeat apply conj.
  - intros. eexists. rewrite exec_configured. split; reflexivity.
  - apply prompt_quotes_symptoms.
  - apply prompt_names_candidate.
  - intros symptoms remedies. repeat apply conj.
    + apply prompt_asks_for_json.
    + apply prompt_allows_empty.
    + apply prompt_forbids_explanation.
  - apply lines_of_remedy_list_all.
Qed.

(** C7.  Every call that passes the configuration check sends exactly
    one request, whatever was sent before (the same request included) and
    however the service behaves: fulfilled, rejected or never settled. *)
Theorem exactly_one_request service client symptoms remedies sent :
  snd (exec service (getAiSuggestions (Some client) symptoms remedies) sent)
    = sent ++ [generateContent_args client (prompt symptoms remedies)]
  ∧ length (snd (exec service
                   (getAiSuggestions (Some client) symptoms remedies) sent))
    = S (length sent).
Proof.
  rewrite exec_configured. split; [done|].
  cbn [snd]. rewrite length_app. simpl. lia.
Qed.

(** C8, as amended.  With an empty candidate list, a call whose response
    text parses returns the empty list whatever the parsed value is. *)
Theorem no_candidates_no_suggestions service client symptoms sent
    (t : JSString) (v : JSValue) :
  service sent (generateContent_args client (prompt symptoms []))
    = Some (Fulfilled {| text := Some t |}) →
  JSON_parse (trim t) = Some v →
  exec service (getAiSuggestions (Some client) symptoms []) sent
  = (Returns [], sent ++ [generateContent_args client (prompt symptoms [])]).
Proof.
  intros Hsettled Hparse. rewrite exec_configured, Hsettled. simpl.
  by rewrite Hparse, filter_no_candidates.
Qed.

(** With an empty candidate list, a call that returns at all returns the
    empty list. *)
Lemma no_candidates_returns_empty service handle symptoms sent
    (result : list JSValue) :
  fst (exec service (getAiSuggestions handle symptoms []) sent) = Returns result →
  result = [].
Proof.
  destruct handle as [client|]; [|done]. rewrite exec_configured. simpl.
  destruct (service sent _) as [[[[t|]]|reason]|]; simpl; try done.
  destruct (JSON_parse (trim t)); [|done].
  rewrite filter_no_candidates. by intros [= <-].
Qed.

(** C9.  The result is not deduplicated: an abbreviation of a candidate
    occurs in the result as many times as it occurs, as a string, in the
    array of the response. *)
Theorem repeated_abbreviations_kept service client symptoms remedies sent
    (t : JSString) (members : list (JSString * JSValue)) (arr : list JSValue)
    (s : JSString) :
  service sent (generateContent_args client (prompt symptoms remedies))
    = Some (Fulfilled {| text := Some t |}) →
  JSON_parse (trim t) = Some (VObject members) →
  lookup_member (js "remedies") members = Some (VArray arr) →
  s ∈ map abbreviation remedies →
  ∃ result,
    fst (exec service (getAiSuggestions (Some client) symptoms remedies) sent)
      = Returns result
    ∧ occurrences s result = occurrences s arr.
Proof.
  intros Hsettled Hparse Hkey Hs. rewrite exec_configured, Hsettled. simpl.
  rewrite Hparse. simpl. rewrite Hkey.
  eexists. split; [done|]. by apply occurrences_filter.
Qed.

(** C10.  Whatever a call throws is a fresh [Error] with one of three
    fixed messages.  A caught value is never thrown again: when the SDK
    call is rejected, the thrown error is the one the [catch] block builds,
    and for a reason that is not an [Error] it is the unknown-error
    [Error], whose message differs from the service-failure one. *)
Theorem failures_are_fixed_errors service handle symptoms remedies sent
    (e : Thrown) :
  fst (exec service (getAiSuggestions handle symptoms remedies) sent) = Throws e →
  (e = new_Error not_configured_message
   ∨ e = new_Error service_failed_message
   ∨ e = new_Error unknown_error_message)
  ∧ instanceof_Error e = true
  ∧ (∀ client reason,
       handle = Some client →
       service sent (generateContent_args client (prompt symptoms remedies))
         = Some (Rejected reason) →
       e = wrapped reason
       ∧ (instanceof_Error reason = false → e = new_Error unknown_error_message))
  ∧ unknown_error_message ≠ service_failed_message.
Proof.
  intros Hthrows.
  assert (e = new_Error not_configured_message
          ∨ e = new_Error service_failed_message
          ∨ e = new_Error unknown_error_message) as Hfixed.
  { destruct handle as [client|].
    - rewrite exec_configured in Hthrows. simpl in Hthrows.
      destruct (service sent _) as [[[[t|]]|reason]|]; simpl in Hthrows;
        try done.
      + destruct (JSON_parse (trim t)); [done|]. injection Hthrows as <-. auto.
      + injection Hthrows as <-. auto.
      + injection Hthrows as <-. unfold wrapped. destruct reason; auto.
    - injection Hthrows as <-. auto. }
  split; [exact Hfixed|]. split; [|split; [|apply messages_distinct]].
  - by destruct Hfixed as [->|[->| ->]].
  - intros client reason -> Hsettled.
    rewrite exec_configured, Hsettled in Hthrows. injection Hthrows as <-.
    split; [done|]. intros Hnot. unfold wrapped. by rewrite Hnot.
Qed.
End Claims.

(** * Worked examples *)

(** The adapter run with the reference parser against fixed services. *)
Import Fixtures.

(** ** The reference parser on sample texts *)

Example parse_object_with_array :
  JSONRef.parse_text (JSONRef.quoted "{`remedies`: [`ARN`, `NUX-V`]}")
  = Some (VObject [(js "remedies",
                    VArray [VString (js "ARN"); VString (js "NUX-V")])]).
Proof. by vm_compute. Qed.

Example parse_mixed_array :
  JSONRef.parse_text
    (JSONRef.quoted " [1.5e3, -0.25, true, false, null, `aA\n`, {`k`: []}] ")
  = Some (VArray [VNumber 15 2; VNumber (-25) (-2); VBool true; VBool false;
                  VNull; VString [97; 65; 10];
                  VObject [(js "k", VArray [])]]).
Proof. by vm_compute. Qed.

Example parse_rejects :
  JSONRef.parse_text (js "not json") = None
  ∧ JSONRef.parse_text (js "") = None
  ∧ JSONRef.parse_text (js "[1,]") = None
  ∧ JSONRef.parse_text (js "01") = None
  ∧ JSONRef.parse_text (js "1.") = None
  ∧ JSONRef.parse_text (js "nul") = None
  ∧ JSONRef.parse_text (js "{} {}") = None
  ∧ JSONRef.parse_text (js "'ARN'") = None
  ∧ JSONRef.parse_text (JSONRef.quoted "{`remedies`: [`ARN`}") = None.
Proof. by vm_compute. Qed.

(** A repeated name: the last member is the one a property read sees. *)
Example parse_repeated_name :
  (JSONRef.parse_text (JSONRef.quoted "{`remedies`: [`ARN`], `remedies`: 7}")
     ≫= λ v, match v with
             | VObject members => lookup_member (js "remedies") members
             | _ => None
             end)
  = Some (VNumber 7 0).
Proof. by vm_compute. Qed.

(** [trim] strips a no-break space and a byte order mark, which the JSON
    grammar does not count as white space. *)
Example trim_strips_more_than_json :
  trim ([65279; 160; 32] ++ js "[]" ++ [10; 8233]) = js "[]"
  ∧ JSONRef.parse_text ([160] ++ js "[]") = None
  ∧ JSONRef.parse_text (trim ([160] ++ js "[]")) = Some (VArray []).
Proof. by vm_compute. Qed.

(** Numbers too small for binary64 are falsy, like zero. *)
Example tiny_numbers_are_falsy :
  ToBoolean (VNumber 1 (-400)) = false
  ∧ ToBoolean (VNumber 5 (-324)) = true
  ∧ ToBoolean (VNumber 0 7) = false
  ∧ ToBoolean (VNumber (-3) 0) = true.
Proof. by vm_compute. Qed.

(** ** The claims on sample calls *)

(** C1 as stated fails: the text [not json] is not valid JSON, and the call
    throws the service-failure error instead of returning the empty list. *)
Lemma invalid_json_is_not_absorbed :
  JSONRef.parse_text (js "not json") = None
  ∧ fst (suggest (replies_with (js "not json")) (Some client0) symptoms0 candidates)
    = Throws (new_Error service_failed_message)
  ∧ fst (suggest (replies_with (js "not json")) (Some client0) symptoms0 candidates)
    ≠ Returns [].
Proof. repeat split; by vm_compute. Qed.

Lemma invalid_json_throws_example :
  suggest (replies_with (js "not json")) (Some client0) symptoms0 candidates
  = (Throws (new_Error service_failed_message),
     [generateContent_args client0 (prompt symptoms0 candidates)]).
Proof.
  apply (@invalid_json_throws JSONRef.runtime
           (replies_with (js "not json")) client0 symptoms0 candidates []
           (js "not json")).
  - reflexivity.
  - vm_compute. reflexivity.
Defined.

(** The example of the specification: of [ARN], [FOO], [42] and [BELL] the
    candidates' abbreviations [ARN] and [BELL] are kept, in that order. *)
Lemma array_response_filtered_example :
  suggest (replies_with (JSONRef.quoted "{`remedies`: [`ARN`,`FOO`,42,`BELL`]}"))
          (Some client0) symptoms0 candidates
  = (Returns [VString (js "ARN"); VString (js "BELL")],
     [generateContent_args client0 (prompt symptoms0 candidates)]).
Proof.
  pose (arr := [VString (js "ARN"); VString (js "FOO"); VNumber 42 0;
                VString (js "BELL")]).
  destruct (@array_response_filtered JSONRef.runtime
              (replies_with (JSONRef.quoted "{`remedies`: [`ARN`,`FOO`,42,`BELL`]}"))
              client0 symptoms0 candidates []
              (JSONRef.quoted "{`remedies`: [`ARN`,`FOO`,42,`BELL`]}")
              [(js "remedies", VArray arr)] arr) as [Hrun _].
  - reflexivity.
  - vm_compute. reflexivity.
  - vm_compute. reflexivity.
  - unfold suggest, run. rewrite Hrun. vm_compute. reflexivity.
Defined.

(** An empty array: an empty result, and no error. *)
Example empty_array_example :
  suggest (replies_with (JSONRef.quoted "{`remedies`: []}"))
          (Some client0) symptoms0 candidates
  = (Returns [], [generateContent_args client0 (prompt symptoms0 candidates)]).
Proof. by vm_compute. Qed.

(** An object whose key [remedies] holds a string, not an array. *)
Lemma other_shapes_give_empty_example :
  suggest (replies_with (JSONRef.quoted "{`remedies`: `ARN`}"))
          (Some client0) symptoms0 candidates
  = (Returns [], [generateContent_args client0 (prompt symptoms0 candidates)]).
Proof.
  apply (@other_shapes_give_empty JSONRef.runtime
           (replies_with (JSONRef.quoted "{`remedies`: `ARN`}"))
           client0 symptoms0 candidates []
           (JSONRef.quoted "{`remedies`: `ARN`}")
           (VObject [(js "remedies", VString (js "ARN"))])).
  - reflexivity.
  - vm_compute. reflexivity.
  - intros members arr [= <-]. vm_compute. discriminate.
Defined.

(** Other values that parse: a missing key, [null], an array, a string. *)
Example other_shapes_more :
  fst (suggest (replies_with (JSONRef.quoted "{`items`: [`ARN`]}"))
               (Some client0) symptoms0 candidates) = Returns []
  ∧ fst (suggest (replies_with (js "null"))
                 (Some client0) symptoms0 candidates) = Returns []
  ∧ fst (suggest (replies_with (JSONRef.quoted "[`ARN`]"))
                 (Some client0) symptoms0 candidates) = Returns []
  ∧ fst (suggest (replies_with (JSONRef.quoted "`ARN`"))
                 (Some client0) symptoms0 candidates) = Returns [].
Proof. by vm_compute. Qed.

(** A rejection with an [Error] of the SDK: the caller sees the
    service-failure error, with nothing of the reason in it. *)
Lemma service_failure_is_wrapped_example :
  suggest (rejects_with (ErrorObject (js "ApiError") (js "429 Too Many Requests")))
          (Some client0) symptoms0 candidates
  = (Throws (new_Error service_failed_message),
     [generateContent_args client0 (prompt symptoms0 candidates)]).
Proof.
  destruct (@service_failure_is_wrapped JSONRef.runtime
              (rejects_with (ErrorObject (js "ApiError") (js "429 Too Many Requests")))
              client0 symptoms0 candidates []
              (ErrorObject (js "ApiError") (js "429 Too Many Requests")))
    as [Hrun _].
  - reflexivity.
  - exact Hrun.
Defined.

(** Without a client nothing is sent, whatever the service would answer. *)
Example missing_credential_example :
  suggest (replies_with (JSONRef.quoted "{`remedies`: [`ARN`]}"))
          (ai None) symptoms0 candidates
  = (Throws (new_Error not_configured_message), [])
  ∧ ai (Some (js "secret")) = Some {| apiKey := js "secret" |}.
Proof. by vm_compute. Qed.

(** Two calls in a row with the same arguments send the same request
    twice: nothing is cached. *)
Example no_caching_example :
  snd (exec (replies_with (JSONRef.quoted "{`remedies`: [`ARN`]}"))
         (@getAiSuggestions JSONRef.runtime (Some client0) symptoms0 candidates)
         (snd (suggest (replies_with (JSONRef.quoted "{`remedies`: [`ARN`]}"))
                       (Some client0) symptoms0 candidates)))
  = [generateContent_args client0 (prompt symptoms0 candidates);
     generateContent_args client0 (prompt symptoms0 candidates)].
Proof. by vm_compute. Qed.

(** C8 as stated fails: with no candidates and a response that is plain
    text, the call throws instead of returning the empty list. *)
Lemma no_candidates_invalid_json_throws :
  JSONRef.parse_text (js "ARN, BELL") = None
  ∧ fst (suggest (replies_with (js "ARN, BELL")) (Some client0) symptoms0 [])
    = Throws (new_Error service_failed_message)
  ∧ fst (suggest (replies_with (js "ARN, BELL")) (Some client0) symptoms0 [])
    ≠ Returns [].
Proof. repeat split; by vm_compute. Qed.

Lemma no_candidates_no_suggestions_example :
  suggest (replies_with (JSONRef.quoted "{`remedies`: [`ARN`, `BELL`]}"))
          (Some client0) symptoms0 []
  = (Returns [], [generateContent_args client0 (prompt symptoms0 [])]).
Proof.
  apply (@no_candidates_no_suggestions JSONRef.runtime
           (replies_with (JSONRef.quoted "{`remedies`: [`ARN`, `BELL`]}"))
           client0 symptoms0 []
           (JSONRef.quoted "{`remedies`: [`ARN`, `BELL`]}")
           (VObject [(js "remedies",
                      VArray [VString (js "ARN"); VString (js "BELL")])])).
  - reflexivity.
  - vm_compute. reflexivity.
Defined.

(** [ARN] three times in the response, three times in the result. *)
Lemma repeated_abbreviations_kept_example :
  ∃ result,
    fst (suggest (replies_with
                    (JSONRef.quoted "{`remedies`: [`ARN`,`BELL`,`ARN`,`ARN`]}"))
                 (Some client0) symptoms0 candidates)
      = Returns result
    ∧ occurrences (js "ARN") result = 3%nat.
Proof.
  pose (arr := [VString (js "ARN"); VString (js "BELL"); VString (js "ARN");
                VString (js "ARN")]).
  destruct (@repeated_abbreviations_kept JSONRef.runtime
              (replies_with
                 (JSONRef.quoted "{`remedies`: [`ARN`,`BELL`,`ARN`,`ARN`]}"))
              client0 symptoms0 candidates []
              (JSONRef.quoted "{`remedies`: [`ARN`,`BELL`,`ARN`,`ARN`]}")
              [(js "remedies", VArray arr)] arr (js "ARN"))
    as (result & Hrun & Hcount).
  - reflexivity.
  - vm_compute. reflexivity.
  - vm_compute. reflexivity.
  - apply (bool_decide_unpack _). vm_compute. exact I.
  - exists result. split; [exact Hrun|]. rewrite Hcount. vm_compute. reflexivity.
Defined.

Example repeated_abbreviations_result :
  fst (suggest (replies_with
                  (JSONRef.quoted "{`remedies`: [`ARN`,`BELL`,`ARN`,`ARN`]}"))
               (Some client0) symptoms0 candidates)
  = Returns [VString (js "ARN"); VString (js "BELL"); VString (js "ARN");
             VString (js "ARN")].
Proof. by vm_compute. Qed.

(** A rejection with a string, which is not an [Error]: the caller sees the
    unknown-error [Error]. *)
Lemma failures_are_fixed_errors_example :
  fst (suggest (rejects_with (NonError (VString (js "quota exceeded"))))
               (Some client0) symptoms0 candidates)
    = Throws (new_Error unknown_error_message)
  ∧ (new_Error unknown_error_message = new_Error not_configured_message
     ∨ new_Error unknown_error_message = new_Error service_failed_message
     ∨ new_Error unknown_error_message = new_Error unknown_error_message).
Proof.
  split; [reflexivity|].
  apply (@failures_are_fixed_errors JSONRef.runtime
           (rejects_with (NonError (VString (js "quota exceeded"))))
           (Some client0) symptoms0 candidates []
           (new_Error unknown_error_message)).
  reflexivity.
Defined.

(** The prompt of a sample call, as sent. *)
Example prompt_example :
  lines (prompt (js "headache") [arnica; belladonna])
  = [ [];
      js "    You are an expert in homeopathy. Based on the following symptoms, suggest the most relevant remedies.";
      js "    ";
      JSONRef.quoted "    Symptoms: `headache`";
      js "    ";
      JSONRef.quoted "    Refer ONLY to the following list of available remedies and provide your answer as a JSON object with a single key `remedies` which contains an array of the remedy abbreviations. For example: {`remedies`: [`ARN`, `NUX-V`]}.";
      js "    If no remedies seem appropriate, return an empty array within the JSON object. Do not include any explanation.";
      [];
      js "    Available Remedies:";
      js "    - Arnica montana (ARN)";
      js "- Belladonna (BELL)";
      js "  " ].
Proof. by vm_compute. Qed.


(** * Further properties of the adapter *)

(** ** Trimming a padded text *)

Lemma trimStart_padding (padding s : JSString) :
  forallb isTrimmed padding = true → trimStart (padding ++ s) = trimStart s.
Proof.
  induction padding as [|c padding IH]; [done|]. simpl.
  intros [Hc Hrest]%andb_prop. rewrite Hc. by apply IH.
Qed.

Lemma forallb_rev {A : Type} (f : A → bool) (l : list A) :
  forallb f (rev l) = forallb f l.
Proof.
  induction l as [|a l IH]; [done|]. simpl.
  rewrite forallb_app, IH. simpl. by rewrite andb_true_r, andb_comm.
Qed.

Lemma trimEnd_padding (s padding : JSString) :
  forallb isTrimmed padding = true → trimEnd (s ++ padding) = trimEnd s.
Proof.
  intros Hpad. unfold trimEnd. rewrite rev_app_distr.
  rewrite trimStart_padding; [done|]. by rewrite forallb_rev.
Qed.

Lemma trim_padding (before s after : JSString) :
  forallb isTrimmed before = true → forallb isTrimmed after = true →
  trim (before ++ s ++ after) = trim s.
Proof.
  intros Hbefore Hafter. unfold trim.
  rewrite trimStart_padding by done.
  induction s as [|c s IH].
  - simpl. rewrite <- (app_nil_r after) at 1.
    by rewrite trimStart_padding.
  - simpl. destruct (isTrimmed c); [exact IH|].
    by apply (trimEnd_padding (c :: s)).
Qed.

(** ** The filter and the set of abbreviations *)

Lemma filter_same_abbreviations (remedies1 remedies2 : list Remedy)
    (l : list JSValue) :
  (∀ a, a ∈ map abbreviation remedies1 ↔ a ∈ map abbreviation remedies2) →
  List.filter (is_candidate_abbreviation remedies1) l
  = List.filter (is_candidate_abbreviation remedies2) l.
Proof.
  intros Hsame. apply filter_ext. intros [| | | |s| |]; simpl; try done.
  by apply bool_decide_ext.
Qed.

Lemma filter_fewer_candidates (remedies1 remedies2 : list Remedy)
    (l : list JSValue) :
  (∀ a, a ∈ map abbreviation remedies1 → a ∈ map abbreviation remedies2) →
  List.filter (is_candidate_abbreviation remedies1)
    (List.filter (is_candidate_abbreviation remedies2) l)
  = List.filter (is_candidate_abbreviation remedies1) l.
Proof.
  intros Hsub. induction l as [|v l IH]; [done|]. simpl.
  destruct (is_candidate_abbreviation remedies2 v) eqn:H2; simpl.
  - by rewrite IH.
  - rewrite IH.
    destruct (is_candidate_abbreviation remedies1 v) eqn:H1; [|done].
    destruct v as [| | | |s| |]; simpl in *; try done.
    apply bool_decide_eq_true in H1. apply Hsub in H1.
    by rewrite bool_decide_eq_true_2 in H2.
Qed.

Lemma filter_candidates_sound (remedies : list Remedy) (l : list JSValue) :
  Forall (λ v, ∃ r, r ∈ remedies ∧ v = VString (abbreviation r))
         (List.filter (is_candidate_abbreviation remedies) l).
Proof.
  apply Forall_forall. intros v [_ Hkeep]%list_elem_of_In%filter_In.
  apply is_candidate_abbreviation_spec in Hkeep as (s & r & -> & Hr & <-).
  by exists r.
Qed.

(** An array of strings loses only non-candidates to the filter. *)
Lemma conforms_array_of_strings (description1 description2 : JSString)
    (v : JSValue) :
  conforms (TypeARRAY (TypeSTRING description1) description2) v = true →
  ∃ arr, v = VArray arr ∧ Forall (λ x, typeof_string x = true) arr.
Proof.
  destruct v as [| | | | |arr|]; simpl; try done.
  intros Hall. exists arr. split; [done|].
  apply Forall_forall. intros x Hx%list_elem_of_In.
  rewrite forallb_forall in Hall. specialize (Hall x Hx). by destruct x.
Qed.

(** ** What the rest of the function shows *)

Lemma Throws_new_Error_inj {A : Type} (message1 message2 : JSString) :
  @Throws A (new_Error message1) = Throws (new_Error message2) →
  message1 = message2.
Proof. by intros [= ->]. Qed.

Section Further.
Context {rt : Runtime}.
Implicit Types (service : Service) (client : GoogleGenAI)
  (symptoms : JSString) (remedies : list Remedy) (sent : list Request).

(** A call that returns went through the parse. *)
Lemma returns_iff_parsed_aux service handle symptoms remedies sent
    (result : list JSValue) :
  fst (exec service (getAiSuggestions handle symptoms remedies) sent)
    = Returns result →
  ∃ client t v,
    handle = Some client
    ∧ service sent (generateContent_args client (prompt symptoms remedies))
      = Some (Fulfilled {| text := Some t |})
    ∧ JSON_parse (trim t) = Some v
    ∧ result = List.filter (is_candidate_abbreviation remedies)
                 (remedies_array v).
Proof.
  destruct handle as [client|]; [|done]. rewrite exec_configured. simpl.
  destruct (service sent _) as [[[[t|]]|reason]|] eqn:Hsettled; simpl;
    try done.
  destruct (JSON_parse (trim t)) as [v|] eqn:Hparse; [|done].
  intros [= <-]. by exists client, t, v.
Qed.

(** X1.  A fulfilled response that carries no text: [response.text] is
    [undefined], [.trim()] throws a [TypeError] inside the [try] block, and
    the call fails with the service-failure error after its one request. *)
Theorem missing_text_fails service client symptoms remedies sent :
  service sent (generateContent_args client (prompt symptoms remedies))
    = Some (Fulfilled {| text := None |}) →
  exec service (getAiSuggestions (Some client) symptoms remedies) sent
  = (Throws (new_Error service_failed_message),
     sent ++ [generateContent_args client (prompt symptoms remedies)]).
Proof. intros Hsettled. by rewrite exec_configured, Hsettled. Qed.

(** X2.  A call returns a result exactly when it has a client, the SDK
    call is fulfilled with a text, and the trimmed text parses; the result
    is then the candidates' abbreviations found in the array under
    [remedies] of the parsed value (none when there is no such array). *)
Theorem returns_iff_parsed service handle symptoms remedies sent
    (result : list JSValue) :
  fst (exec service (getAiSuggestions handle symptoms remedies) sent)
    = Returns result
  ↔ ∃ client t v,
      handle = Some client
      ∧ service sent (generateContent_args client (prompt symptoms remedies))
        = Some (Fulfilled {| text := Some t |})
      ∧ JSON_parse (trim t) = Some v
      ∧ result = List.filter (is_candidate_abbreviation remedies)
                   (remedies_array v).
Proof.
  split; [apply returns_iff_parsed_aux|].
  intros (client & t & v & -> & Hsettled & Hparse & ->).
  rewrite exec_configured, Hsettled. simpl. by rewrite Hparse.
Qed.

(** X3.  The function sets no timeout: a call stays pending exactly when
    it has a client and the promise of the SDK call never settles. *)
Theorem hangs_iff_never_settles service handle symptoms remedies sent :
  fst (exec service (getAiSuggestions handle symptoms remedies) sent) = Hangs
  ↔ ∃ client,
      handle = Some client
      ∧ service sent (generateContent_args client (prompt symptoms remedies))
        = None.
Proof.
  split.
  - destruct handle as [client|]; [|done]. rewrite exec_configured. simpl.
    destruct (service sent _) as [[[[t|]]|reason]|] eqn:Hsettled; simpl;
      try done.
    + by destruct (JSON_parse (trim t)).
    + intros _. by exists client.
  - intros (client & -> & Hsettled). by rewrite exec_configured, Hsettled.
Qed.

(** X4.  Whatever the service answers, every element of a returned result
    is a string, and that string is the abbreviation of one of the
    candidates passed to the call. *)
Theorem result_is_sound service handle symptoms remedies sent
    (result : list JSValue) :
  fst (exec service (getAiSuggestions handle symptoms remedies) sent)
    = Returns result →
  Forall (λ v, ∃ r, r ∈ remedies ∧ v = VString (abbreviation r)) result.
Proof.
  intros (client & t & v & _ & _ & _ & ->)%returns_iff_parsed_aux.
  apply filter_candidates_sound.
Qed.
(** X5.  What a call makes of a response depends on the candidates only
    through the set of their abbreviations: two calls that receive the same
    text, with candidate lists that have the same abbreviations (in any
    order, under any names, with or without repeats, for any symptoms), have
    the same outcome. *)
Theorem same_abbreviations_same_outcome service1 service2 client1 client2
    symptoms1 symptoms2 remedies1 remedies2 sent1 sent2 (t : JSString) :
  service1 sent1 (generateContent_args client1 (prompt symptoms1 remedies1))
    = Some (Fulfilled {| text := Some t |}) →
  service2 sent2 (generateContent_args client2 (prompt symptoms2 remedies2))
    = Some (Fulfilled {| text := Some t |}) →
  (∀ a, a ∈ map abbreviation remedies1 ↔ a ∈ map abbreviation remedies2) →
  fst (exec service1 (getAiSuggestions (Some client1) symptoms1 remedies1) sent1)
  = fst (exec service2 (getAiSuggestions (Some client2) symptoms2 remedies2) sent2).
Proof.
  intros Hsettled1 Hsettled2 Hsame.
  rewrite !exec_configured, Hsettled1, Hsettled2. simpl.
  destruct (JSON_parse (trim t)) as [v|]; [|done].
  by rewrite (filter_same_abbreviations remedies1 remedies2).
Qed.

(** X6.  Fewer candidates, fewer suggestions: when the abbreviations of
    one candidate list are among those of another, the result for the first
    is the result for the second filtered once more by the first, so it is
    never longer. *)
Theorem fewer_candidates_fewer_suggestions service1 service2 client1 client2
    symptoms1 symptoms2 remedies1 remedies2 sent1 sent2
    (t : JSString) (v : JSValue) :
  service1 sent1 (generateContent_args client1 (prompt symptoms1 remedies1))
    = Some (Fulfilled {| text := Some t |}) →
  service2 sent2 (generateContent_args client2 (prompt symptoms2 remedies2))
    = Some (Fulfilled {| text := Some t |}) →
  JSON_parse (trim t) = Some v →
  (∀ a, a ∈ map abbreviation remedies1 → a ∈ map abbreviation remedies2) →
  ∃ result1 result2,
    fst (exec service1 (getAiSuggestions (Some client1) symptoms1 remedies1) sent1)
      = Returns result1
    ∧ fst (exec service2 (getAiSuggestions (Some client2) symptoms2 remedies2) sent2)
      = Returns result2
    ∧ result1 = List.filter (is_candidate_abbreviation remedies1) result2
    ∧ (length result1 ≤ length result2)%nat.
Proof.
  intros Hsettled1 Hsettled2 Hparse Hsub.
  rewrite !exec_configured, Hsettled1, Hsettled2. simpl. rewrite Hparse.
  eexists _, _. split; [done|]. split; [done|].
  assert (List.filter (is_candidate_abbreviation remedies1) (remedies_array v)
          = List.filter (is_candidate_abbreviation remedies1)
              (List.filter (is_candidate_abbreviation remedies2)
                 (remedies_array v))) as Heq
    by by rewrite filter_fewer_candidates.
  split; [exact Heq|]. rewrite Heq. apply filter_length_le.
Qed.

(** X7.  White space around the text of the response is ignored, also the
    kinds JSON itself does not allow (a no-break space, a byte order mark):
    a response padded with characters that [trim] strips has the outcome of
    the unpadded one. *)
Theorem padding_is_ignored service1 service2 client symptoms remedies
    sent1 sent2 (before t after : JSString) :
  forallb isTrimmed before = true →
  forallb isTrimmed after = true →
  service1 sent1 (generateContent_args client (prompt symptoms remedies))
    = Some (Fulfilled {| text := Some (before ++ t ++ after) |}) →
  service2 sent2 (generateContent_args client (prompt symptoms remedies))
    = Some (Fulfilled {| text := Some t |}) →
  fst (exec service1 (getAiSuggestions (Some client) symptoms remedies) sent1)
  = fst (exec service2 (getAiSuggestions (Some client) symptoms remedies) sent2).
Proof.
  intros Hbefore Hafter Hsettled1 Hsettled2.
  rewrite !exec_configured, Hsettled1, Hsettled2. simpl.
  by rewrite trim_padding.
Qed.

(** X8.  The configuration error is thrown exactly when the key was unset
    or empty at module initialisation; with any other key, the call sends
    its request through a client that holds that very key. *)
Theorem not_configured_iff_no_key service (API_KEY : option JSString)
    symptoms remedies sent :
  (fst (exec service (getAiSuggestions (ai API_KEY) symptoms remedies) sent)
     = Throws (new_Error not_configured_message)
   ↔ API_KEY = None ∨ API_KEY = Some [])
  ∧ (∀ key, API_KEY = Some key → key ≠ [] →
       snd (exec service (getAiSuggestions (ai API_KEY) symptoms remedies) sent)
       = sent ++ [generateContent_args {| apiKey := key |}
                    (prompt symptoms remedies)]).
Proof.
  destruct messages_distinct as (_ & Hfailed & Hunknown).
  split.
  - split.
    + destruct API_KEY as [[|c key]|]; [by right | | by left].
      change (ai (Some (c :: key))) with (Some {| apiKey := c :: key |}).
      rewrite exec_configured. simpl.
      destruct (service sent _) as [[[[t|]]|reason]|]; simpl.
      * destruct (JSON_parse (trim t)); [done|].
        intros Heq%Throws_new_Error_inj. by elim Hfailed.
      * intros Heq%Throws_new_Error_inj. by elim Hfailed.
      * unfold wrapped.
        destruct reason; intros Heq%Throws_new_Error_inj; simpl in Heq;
          [by elim Hfailed | by elim Hunknown].
      * done.
    + by intros [->| ->].
  - intros key -> Hkey. destruct key as [|c key]; [done|].
    change (ai (Some (c :: key))) with (Some {| apiKey := c :: key |}).
    by rewrite exec_configured.
Qed.

(** X9.  The request and the post-processing agree on the shape of the
    answer: a response whose parsed value follows the [responseSchema] of
    the request is an object with an array of strings under [remedies], the
    call returns the candidates' abbreviations of that array, and what it
    leaves out are strings that are no candidate's abbreviation. *)
Theorem schema_conforming_response_accepted service client symptoms remedies
    sent (t : JSString) (v : JSValue) :
  service sent (generateContent_args client (prompt symptoms remedies))
    = Some (Fulfilled {| text := Some t |}) →
  JSON_parse (trim t) = Some v →
  conforms (responseSchema
              (config (generateContent_args client (prompt symptoms remedies))))
           v = true →
  ∃ members arr,
    v = VObject members
    ∧ lookup_member (js "remedies") members = Some (VArray arr)
    ∧ exec service (getAiSuggestions (Some client) symptoms remedies) sent
      = (Returns (List.filter (is_candidate_abbreviation remedies) arr),
         sent ++ [generateContent_args client (prompt symptoms remedies)])
    ∧ Forall (λ x, ∃ s, x = VString s
                       ∧ (is_candidate_abbreviation remedies x = false →
                          s ∉ map abbreviation remedies)) arr.
Proof.
  intros Hsettled Hparse Hconforms. cbn [generateContent_args config
    request_config responseSchema] in Hconforms.
  destruct v as [| | | | | |members]; try done.
  cbn [conforms forallb fst snd] in Hconforms.
  rewrite !andb_true_r in Hconforms.
  apply andb_prop in Hconforms as [[w Hkey]%bool_decide_eq_true Hprop].
  rewrite Hkey in Hprop.
  apply (conforms_array_of_strings
           (js "The abbreviation of a suggested remedy.")
           (js "An array of suggested remedy abbreviations."))
    in Hprop as (arr & -> & Hstrings).
  exists members, arr. split; [done|]. split; [done|]. split.
  - rewrite exec_configured, Hsettled. simpl. rewrite Hparse. simpl.
    by rewrite Hkey.
  - eapply Forall_impl; [exact Hstrings|]. intros [| | | |s| |] Hx; try done.
    exists s. split; [done|]. simpl. by intros Hout%bool_decide_eq_false.
Qed.

(** X11.  The causes of failure, all of them: a call throws exactly when
    there is no client (the configuration error), or the SDK call is
    rejected (the error the [catch] block builds for the reason), or the
    response has no text, or its trimmed text is not valid JSON (the
    service-failure error in both cases). *)
Theorem throws_iff service handle symptoms remedies sent (e : Thrown) :
  fst (exec service (getAiSuggestions handle symptoms remedies) sent) = Throws e
  ↔ (handle = None ∧ e = new_Error not_configured_message)
    ∨ ∃ client,
        handle = Some client
        ∧ ((∃ reason,
              service sent (generateContent_args client (prompt symptoms remedies))
                = Some (Rejected reason)
              ∧ e = wrapped reason)
           ∨ (service sent (generateContent_args client (prompt symptoms remedies))
                = Some (Fulfilled {| text := None |})
              ∧ e = new_Error service_failed_message)
           ∨ (∃ t,
                service sent (generateContent_args client (prompt symptoms remedies))
                  = Some (Fulfilled {| text := Some t |})
                ∧ JSON_parse (trim t) = None
                ∧ e = new_Error service_failed_message)).
Proof.
  split.
  - destruct handle as [client|].
    + rewrite exec_configured. simpl. intros Hthrows. right. exists client.
      split; [done|].
      destruct (service sent _) as [[[[t|]]|reason]|]; simpl in Hthrows.
      * destruct (JSON_parse (trim t)) eqn:Hparse; [done|].
        injection Hthrows as <-. right. right. by exists t.
      * injection Hthrows as <-. right. by left.
      * injection Hthrows as <-. left. by exists reason.
      * done.
    + intros [= <-]. by left.
  - intros [[-> ->]|(client & -> & [(reason & Hsettled & ->)
                                   |[[Hsettled ->]|(t & Hsettled & Hparse & ->)]])];
      [done| | |]; rewrite exec_configured, Hsettled; simpl; [done|done|].
    by rewrite Hparse.
Qed.

(** X12.  The unknown-error message is kept for one case: a call throws
    it exactly when the SDK call is rejected with a value that is not an
    [Error].  The exceptions of the runtime inside the [try] block and the
    rejections with an [Error] never produce it. *)
Theorem unknown_error_iff service handle symptoms remedies sent :
  fst (exec service (getAiSuggestions handle symptoms remedies) sent)
    = Throws (new_Error unknown_error_message)
  ↔ ∃ client v,
      handle = Some client
      ∧ service sent (generateContent_args client (prompt symptoms remedies))
        = Some (Rejected (NonError v)).
Proof.
  destruct messages_distinct as (Hunknown & _ & Hconfigured).
  split.
  - destruct handle as [client|].
    + rewrite exec_configured. simpl.
      destruct (service sent _) as [[[[t|]]|reason]|] eqn:Hsettled; simpl.
      * destruct (JSON_parse (trim t)); [done|].
        intros Heq%Throws_new_Error_inj. by elim Hunknown.
      * intros Heq%Throws_new_Error_inj. by elim Hunknown.
      * destruct reason as [name message|v].
        -- intros Heq%Throws_new_Error_inj. by elim Hunknown.
        -- intros _. by exists client, v.
      * done.
    + intros Heq%Throws_new_Error_inj. by elim Hconfigured.
  - intros (client & v & -> & Hsettled). by rewrite exec_configured, Hsettled.
Qed.
End Further.

(** ** The further properties on sample calls *)

Import MoreFixtures.

Lemma missing_text_fails_example :
  suggest replies_without_text (Some client0) symptoms0 candidates
  = (Throws (new_Error service_failed_message),
     [generateContent_args client0 (prompt symptoms0 candidates)]).
Proof.
  apply (@missing_text_fails JSONRef.runtime
           replies_without_text client0 symptoms0 candidates []).
  reflexivity.
Defined.

(** A call left pending, and one that returns. *)
Example pending_call_example :
  fst (suggest never_settles (Some client0) symptoms0 candidates) = Hangs
  ∧ snd (suggest never_settles (Some client0) symptoms0 candidates)
    = [generateContent_args client0 (prompt symptoms0 candidates)].
Proof. by vm_compute. Qed.

Lemma result_is_sound_example :
  Forall (λ v, ∃ r, r ∈ candidates ∧ v = VString (abbreviation r))
         [VString (js "ARN"); VString (js "BELL")].
Proof.
  apply (@result_is_sound JSONRef.runtime
           (replies_with (JSONRef.quoted "{`remedies`: [`ARN`,`FOO`,42,`BELL`]}"))
           (Some client0) symptoms0 candidates []).
  vm_compute. reflexivity.
Defined.

(** The same response for the candidates and for the shuffled, renamed
    list: the same result. *)
Lemma same_abbreviations_same_outcome_example :
  fst (suggest (replies_with (JSONRef.quoted "{`remedies`: [`BELL`,`XYZ`,`ARN`]}"))
               (Some client0) symptoms0 candidates)
  = fst (suggest (replies_with (JSONRef.quoted "{`remedies`: [`BELL`,`XYZ`,`ARN`]}"))
                 (Some client0) (js "a sore throat") candidates_shuffled).
Proof.
  apply (@same_abbreviations_same_outcome JSONRef.runtime
           (replies_with (JSONRef.quoted "{`remedies`: [`BELL`,`XYZ`,`ARN`]}"))
           (replies_with (JSONRef.quoted "{`remedies`: [`BELL`,`XYZ`,`ARN`]}"))
           client0 client0 symptoms0 (js "a sore throat")
           candidates candidates_shuffled [] []
           (JSONRef.quoted "{`remedies`: [`BELL`,`XYZ`,`ARN`]}")).
  - reflexivity.
  - reflexivity.
  - intros a.
    change (map abbreviation candidates)
      with [js "ARN"; js "NUX-V"; js "BELL"].
    change (map abbreviation candidates_shuffled)
      with [js "BELL"; js "NUX-V"; js "ARN"; js "BELL"].
    rewrite !elem_of_cons, !elem_of_nil. tauto.
Defined.

(** One candidate instead of three: of [ARN], [BELL], [ARN] only the two
    [ARN] are left. *)
Lemma fewer_candidates_fewer_suggestions_example :
  ∃ result1 result2,
    fst (suggest (replies_with (JSONRef.quoted "{`remedies`: [`ARN`,`BELL`,`ARN`]}"))
                 (Some client0) symptoms0 [arnica])
      = Returns result1
    ∧ fst (suggest (replies_with
                      (JSONRef.quoted "{`remedies`: [`ARN`,`BELL`,`ARN`]}"))
                   (Some client0) symptoms0 candidates)
      = Returns result2
    ∧ result1 = List.filter (is_candidate_abbreviation [arnica]) result2
    ∧ (length result1 ≤ length result2)%nat.
Proof.
  apply (@fewer_candidates_fewer_suggestions JSONRef.runtime
           (replies_with (JSONRef.quoted "{`remedies`: [`ARN`,`BELL`,`ARN`]}"))
           (replies_with (JSONRef.quoted "{`remedies`: [`ARN`,`BELL`,`ARN`]}"))
           client0 client0 symptoms0 symptoms0 [arnica] candidates [] []
           (JSONRef.quoted "{`remedies`: [`ARN`,`BELL`,`ARN`]}")
           (VObject [(js "remedies",
                      VArray [VString (js "ARN"); VString (js "BELL");
                              VString (js "ARN")])])).
  - reflexivity.
  - reflexivity.
  - vm_compute. reflexivity.
  - intros a.
    change (map abbreviation [arnica]) with [js "ARN"].
    change (map abbreviation candidates)
      with [js "ARN"; js "NUX-V"; js "BELL"].
    rewrite !elem_of_cons, !elem_of_nil. tauto.
Defined.

Example fewer_candidates_results :
  fst (suggest (replies_with (JSONRef.quoted "{`remedies`: [`ARN`,`BELL`,`ARN`]}"))
               (Some client0) symptoms0 [arnica])
  = Returns [VString (js "ARN"); VString (js "ARN")].
Proof. by vm_compute. Qed.

(** A byte order mark, a no-break space and line ends around the text. *)
Lemma padding_is_ignored_example :
  fst (suggest (replies_with ([65279; 160; 10]
                              ++ JSONRef.quoted "{`remedies`: [`ARN`]}"
                              ++ [32; 8233]))
               (Some client0) symptoms0 candidates)
  = fst (suggest (replies_with (JSONRef.quoted "{`remedies`: [`ARN`]}"))
                 (Some client0) symptoms0 candidates).
Proof.
  apply (@padding_is_ignored JSONRef.runtime
           (replies_with ([65279; 160; 10]
                          ++ JSONRef.quoted "{`remedies`: [`ARN`]}"
                          ++ [32; 8233]))
           (replies_with (JSONRef.quoted "{`remedies`: [`ARN`]}"))
           client0 symptoms0 candidates [] []
           [65279; 160; 10] (JSONRef.quoted "{`remedies`: [`ARN`]}") [32; 8233]).
  - vm_compute. reflexivity.
  - vm_compute. reflexivity.
  - reflexivity.
  - reflexivity.
Defined.

Example padding_result :
  fst (suggest (replies_with ([65279; 160; 10]
                              ++ JSONRef.quoted "{`remedies`: [`ARN`]}"
                              ++ [32; 8233]))
               (Some client0) symptoms0 candidates)
  = Returns [VString (js "ARN")].
Proof. by vm_compute. Qed.

(** A response that follows the schema, with a property the schema does
    not list. *)
Lemma schema_conforming_response_accepted_example :
  suggest (replies_with
             (JSONRef.quoted "{`note`: 1, `remedies`: [`ARN`, `FOO`]}"))
          (Some client0) symptoms0 candidates
  = (Returns [VString (js "ARN")],
     [generateContent_args client0 (prompt symptoms0 candidates)]).
Proof.
  destruct (@schema_conforming_response_accepted JSONRef.runtime
              (replies_with
                 (JSONRef.quoted "{`note`: 1, `remedies`: [`ARN`, `FOO`]}"))
              client0 symptoms0 candidates []
              (JSONRef.quoted "{`note`: 1, `remedies`: [`ARN`, `FOO`]}")
              (VObject [(js "note", VNumber 1 0);
                        (js "remedies",
                         VArray [VString (js "ARN"); VString (js "FOO")])]))
    as (members & arr & Hv & Hkey & Hrun & _).
  - reflexivity.
  - vm_compute. reflexivity.
  - vm_compute. reflexivity.
  - injection Hv as <-. vm_compute in Hkey. injection Hkey as <-.
    unfold suggest, run. rewrite Hrun. vm_compute. reflexivity.
Defined.

(** Values that do not follow the schema. *)
Example not_conforming :
  conforms (responseSchema request_config)
    (VObject [(js "remedies", VString (js "ARN"))]) = false
  ∧ conforms (responseSchema request_config)
      (VObject [(js "remedies", VArray [VString (js "ARN"); VNumber 42 0])])
    = false
  ∧ conforms (responseSchema request_config) (VObject []) = false
  ∧ conforms (responseSchema request_config) (VArray []) = false.
Proof. by vm_compute. Qed.


(** A key that is set reaches the SDK; an empty one leaves the module
    without a client. *)
Example key_example :
  snd (exec (replies_with (js "[]"))
         (@getAiSuggestions JSONRef.runtime (ai (Some (js "secret")))
            symptoms0 candidates) [])
  = [generateContent_args {| apiKey := js "secret" |}
       (prompt symptoms0 candidates)]
  ∧ exec (replies_with (js "[]"))
      (@getAiSuggestions JSONRef.runtime (ai (Some (js "")))
         symptoms0 candidates) []
    = (Throws (new_Error not_configured_message), []).
Proof. by vm_compute. Qed.

(** ** The candidate list on sample inputs *)

(** C6 as stated fails: a candidate whose name holds a line feed takes two
    lines of the prompt, neither of which is its [name (abbreviation)]. *)
Lemma candidate_name_with_line_feed :
  length [arnica_two_lines] = 1%nat
  ∧ lines (join nl (map remedy_line [arnica_two_lines]))
    = [js "- Arnica"; js "montana (ARN)"]
  ∧ map (λ request, skipn 9 (lines (contents request)))
        (snd (suggest (replies_with (js "{}")) (Some client0) (js "headache")
                      [arnica_two_lines]))
    = [[js "    - Arnica"; js "montana (ARN)"; js "  "]].
Proof. by vm_compute. Qed.

(** Three candidates without line feeds: three lines. *)
Lemma prompt_embeds_inputs_example :
  lines (join nl (map remedy_line candidates))
  = [js "- Arnica montana (ARN)"; js "- Nux vomica (NUX-V)";
     js "- Belladonna (BELL)"].
Proof.
  destruct (@prompt_embeds_inputs JSONRef.runtime) as (_ & _ & _ & _ & Hlines).
  refine (eq_trans (Hlines candidates _) _).
  - repeat constructor; apply (bool_decide_unpack _); vm_compute; exact I.
  - vm_compute. reflexivity.
Defined.

(** No candidate: the request is still sent, with an empty list. *)
Example prompt_without_candidates :
  map (λ request, skipn 8 (lines (contents request)))
      (snd (suggest (replies_with (js "{}")) (Some client0) (js "headache") []))
  = [[js "    Available Remedies:"; js "    "; js "  "]].
Proof. by vm_compute. Qed.
